(** * AI Content Studio: the content-creation pipeline

    A shallow embedding of [app/tasks/content_creation_task.py], of the
    parts of [app/agents/research_agent.py], [app/agents/writer_agent.py]
    and [app/agents/base_agent.py] it calls, and of the endpoint in
    [app/api/content.py].

    Python [str] values are Rocq [string]s whose characters are read as
    Latin-1 code points.  Python dictionaries built by the agents are
    association lists (insertion ordered, first key wins on lookup).  The
    language-model backend is a parameter: a function from the agent and
    the prompt to either a text or a raised exception. *)

From Stdlib Require Import String Ascii List Bool Arith Lia ZArith.
From Stdlib Require Import DecimalString DecimalNat.
Import ListNotations.
Open Scope string_scope.

(* ------------------------------------------------------------------ *)
(** ** Python string primitives *)
Module PyStr.

(** [str.isspace] restricted to Latin-1: \t \n \v \f \r, the separators
    \x1c-\x1f, space, NEL (\x85) and NBSP (\xa0). *)
Definition is_space (c : ascii) : bool :=
  let n := nat_of_ascii c in
  (((9 <=? n) && (n <=? 13)) || ((28 <=? n) && (n <=? 32))
  || (n =? 133) || (n =? 160))%nat.

Fixpoint lstrip (s : string) : string :=
  match s with
  | EmptyString => EmptyString
  | String c r => if is_space c then lstrip r else s
  end.

Fixpoint rev_str (s : string) : string :=
  match s with
  | EmptyString => EmptyString
  | String c r => rev_str r ++ String c EmptyString
  end.

(** [s.strip()] *)
Definition strip (s : string) : string := rev_str (lstrip (rev_str (lstrip s))).

(** [s.split()] (no separator): runs of whitespace separate tokens,
    leading and trailing whitespace produce no empty token.  [cur] is the
    token being read. *)
Fixpoint split_ws_go (cur : string) (s : string) : list string :=
  match s with
  | EmptyString => match cur with EmptyString => [] | _ => [cur] end
  | String c r =>
      if is_space c then
        match cur with
        | EmptyString => split_ws_go EmptyString r
        | _ => cur :: split_ws_go EmptyString r
        end
      else split_ws_go (cur ++ String c EmptyString) r
  end.

Definition split_ws (s : string) : list string := split_ws_go EmptyString s.

(** [s.split(sep)] for a one-character separator: always [k+1] pieces
    for [k] occurrences of [sep]. *)
Fixpoint split_on_go (sep : ascii) (cur : string) (s : string) : list string :=
  match s with
  | EmptyString => [cur]
  | String c r =>
      if Ascii.eqb c sep then cur :: split_on_go sep EmptyString r
      else split_on_go sep (cur ++ String c EmptyString) r
  end.

Definition split_on (sep : ascii) (s : string) : list string :=
  split_on_go sep EmptyString s.

(** [str.lower] on Latin-1: A-Z and the upper-case letters
    \xc0-\xde (without the multiplication sign \xd7) move up by 32. *)
Definition lower_char (c : ascii) : ascii :=
  let n := nat_of_ascii c in
  if (((65 <=? n) && (n <=? 90)) || ((192 <=? n) && (n <=? 222) && negb (n =? 215)))%nat
  then ascii_of_nat (n + 32)%nat else c.

Fixpoint lower (s : string) : string :=
  match s with
  | EmptyString => EmptyString
  | String c r => String (lower_char c) (lower r)
  end.

(** [needle in hay] *)
Fixpoint contains (needle hay : string) : bool :=
  match hay with
  | EmptyString => String.prefix needle hay
  | String _ r => String.prefix needle hay || contains needle r
  end.

(** [sep.join(xs)] *)
Fixpoint join (sep : string) (xs : list string) : string :=
  match xs with
  | [] => EmptyString
  | [x] => x
  | x :: r => x ++ sep ++ join sep r
  end.

(** [str(n)] for a Python [int]. *)
Definition of_Z (z : Z) : string := NilZero.string_of_int (Z.to_int z).

Definition nl : string := String (ascii_of_nat 10) EmptyString.

(** The double quote character. *)
Definition dq : string := String (ascii_of_nat 34) EmptyString.

End PyStr.
Import PyStr.

(* ------------------------------------------------------------------ *)
(** ** The research dictionary

    [Dict[str, Any]] values as the agents build them: a string or a list
    of strings. *)
Inductive pyval : Type :=
| VStr (s : string)
| VList (l : list string).

Definition pydict : Type := list (string * pyval).

Fixpoint dict_get (d : pydict) (k : string) : option pyval :=
  match d with
  | [] => None
  | (k', v) :: r => if String.eqb k k' then Some v else dict_get r k
  end.

(** [k in d] *)
Definition dict_has (d : pydict) (k : string) : bool :=
  match dict_get d k with Some _ => true | None => false end.

Fixpoint chars (s : string) : list string :=
  match s with
  | EmptyString => []
  | String c r => String c EmptyString :: chars r
  end.

(** A value seen as a Python sequence of strings: slicing and joining a
    [str] walks its characters. *)
Definition as_seq (v : option pyval) : list string :=
  match v with
  | Some (VList l) => l
  | Some (VStr s) => chars s
  | None => []
  end.

(** [ContentCreationTask._prepare_research_requirements] *)
Definition prepare_research_requirements (research_data : pydict) : string :=
  let requirements := @nil string in
  let requirements :=
    if dict_has research_data "key_facts"
    then app requirements ["Key Facts: " ++ join ", " (firstn 5 (as_seq (dict_get research_data "key_facts")))]
    else requirements in
  let requirements :=
    if dict_has research_data "sources"
    then app requirements ["Credible Sources: " ++ join ", " (firstn 3 (as_seq (dict_get research_data "sources")))]
    else requirements in
  let requirements :=
    if dict_has research_data "insights"
    then app requirements ["Key Insights: " ++ join ", " (firstn 3 (as_seq (dict_get research_data "insights")))]
    else requirements in
  match requirements with
  | [] => EmptyString
  | _ => join nl requirements
  end.

(* ------------------------------------------------------------------ *)
(** ** Result extractors of [ResearchAgent] *)

(** The loop shared by the [_extract_*] helpers:
    [for line in text.split('\n'):
       if any(keyword in line.lower() for keyword in keywords):
           out.append(line.strip())] *)
Fixpoint extract_lines (keywords : list string) (lines : list string) (out : list string)
  : list string :=
  match lines with
  | [] => out
  | line :: rest =>
      let out := if existsb (fun keyword => contains keyword (lower line)) keywords
                 then app out [strip line] else out in
      extract_lines keywords rest out
  end.

Definition newline_char : ascii := ascii_of_nat 10.

Definition key_facts_keywords : list string := ["fact"; "statistic"; "data"; "figure"].
Definition sources_keywords : list string := ["source"; "reference"; "study"; "report"].
Definition insights_keywords : list string := ["insight"; "finding"; "discovery"; "observation"].
Definition recommendations_keywords : list string := ["recommend"; "suggest"; "advise"; "propose"].

(** [_extract_key_facts] *)
Definition extract_key_facts (text : string) : list string :=
  extract_lines key_facts_keywords (split_on newline_char text) [].

(** [_extract_sources] *)
Definition extract_sources (text : string) : list string :=
  extract_lines sources_keywords (split_on newline_char text) [].

(** [_extract_insights] *)
Definition extract_insights (text : string) : list string :=
  extract_lines insights_keywords (split_on newline_char text) [].

(** [_extract_recommendations] *)
Definition extract_recommendations (text : string) : list string :=
  extract_lines recommendations_keywords (split_on newline_char text) [].

(** [ResearchAgent._parse_research_result] *)
Definition parse_research_result (research_text topic : string) : pydict :=
  [("topic", VStr topic);
   ("research_findings", VStr research_text);
   ("key_facts", VList (extract_key_facts research_text));
   ("sources", VList (extract_sources research_text));
   ("insights", VList (extract_insights research_text));
   ("recommendations", VList (extract_recommendations research_text))].

(* ------------------------------------------------------------------ *)
(** ** Prompt templates *)

(** The eight-space indentation of the triple-quoted f-strings. *)
Definition ind : string := "        ".

(** A line of a triple-quoted template: newline, indentation, text. *)
Definition tl (s : string) : string := nl ++ ind ++ s.

(** The task description of [ResearchAgent.research_topic]. *)
Definition research_prompt (topic research_depth content_type target_audience : string)
  : string :=
  tl ("Conduct " ++ research_depth ++ " research on the topic: " ++ dq ++ topic ++ dq)
  ++ tl EmptyString ++ tl ("Content Type: " ++ content_type)
  ++ tl ("Target Audience: " ++ target_audience)
  ++ tl EmptyString ++ tl "Please provide:"
  ++ tl "1. Key facts and statistics"
  ++ tl "2. Current trends and developments"
  ++ tl "3. Expert opinions and quotes"
  ++ tl "4. Relevant case studies or examples"
  ++ tl "5. Historical context (if applicable)"
  ++ tl "6. Controversial aspects or debates"
  ++ tl "7. Future implications or predictions"
  ++ tl "8. Credible sources and references"
  ++ tl "9. Data visualization suggestions"
  ++ tl "10. Research gaps or areas for further study"
  ++ tl EmptyString.

(** [keywords] of type [Optional[List[str]]] is truthy when it is a
    non-empty list. *)
Definition keywords_truthy (keywords : option (list string)) : bool :=
  match keywords with Some (_ :: _) => true | _ => false end.

(** [additional_requirements] of type [Optional[str]] is truthy when it is
    a non-empty string. *)
Definition str_truthy (s : option string) : bool :=
  match s with Some (String _ _) => true | _ => false end.

(** The task description of [WriterAgent.create_content_draft]. *)
Definition writer_prompt (topic content_type target_audience : string) (word_count : Z)
    (tone : string) (keywords : option (list string))
    (additional_requirements : option string) : string :=
  let task_description :=
    tl ("Create a " ++ content_type ++ " about " ++ dq ++ topic ++ dq
        ++ " with the following specifications:")
    ++ tl EmptyString
    ++ tl ("- Target Audience: " ++ target_audience)
    ++ tl ("- Word Count: Approximately " ++ of_Z word_count ++ " words")
    ++ tl ("- Tone: " ++ tone)
    ++ tl ("- Content Type: " ++ content_type)
    ++ tl EmptyString in
  let task_description :=
    if keywords_truthy keywords
    then task_description ++ nl ++ "- Keywords to include naturally: "
         ++ join ", " (match keywords with Some k => k | None => [] end)
    else task_description in
  let task_description :=
    if str_truthy additional_requirements
    then task_description ++ nl ++ "- Additional Requirements: "
         ++ (match additional_requirements with Some a => a | None => EmptyString end)
    else task_description in
  task_description
    ++ tl EmptyString ++ tl "Please ensure the content is:"
    ++ tl "1. Well-structured with clear headings and subheadings"
    ++ tl "2. Engaging and informative"
    ++ tl "3. Optimized for the target audience"
    ++ tl "4. Free of grammatical errors"
    ++ tl "5. Original and plagiarism-free"
    ++ tl EmptyString.

(* ------------------------------------------------------------------ *)
(** ** Results *)

(** The dict returned by [ContentCreationTask._create_draft]. *)
Record DraftResult : Type := {
  draft_content : string;
  research_incorporated : bool;
  word_count_actual : nat;
  keywords_used : list string
}.

(** The dict returned by [ContentCreationTask.create_content]. *)
Record ContentRecord : Type := {
  cr_topic : string;
  cr_content_type : string;
  cr_target_audience : string;
  cr_word_count : Z;
  cr_tone : string;
  cr_keywords : option (list string);
  cr_research_data : pydict;
  cr_content : DraftResult;
  cr_creation_timestamp : string;
  cr_status : string
}.

(* ------------------------------------------------------------------ *)
(** ** Effects: exceptions and the trace of calls

    The trace records the points where the pipeline enters a step (the
    [logger.info] calls of [_conduct_research] and [_create_draft]) and
    each call of the language-model backend ([agent.execute_task] inside
    [BaseAgent.execute_task]). *)

Inductive exn : Type :=
| ValueError (msg : string)
| HTTPException (status_code : nat) (detail : string)
| UpstreamFailure (reason : string).

Inductive result (A : Type) : Type :=
| Ok (a : A)
| Raise (e : exn).
Arguments Ok {A} a.
Arguments Raise {A} e.

Inductive agent : Type := ResearchSpecialist | ContentWriter.

Inductive event : Type :=
| EvConductResearch (topic : string)
| EvCompletion (who : agent) (prompt : string)
| EvCreateDraft (topic : string).

Definition M (A : Type) : Type := list event -> list event * result A.

Definition ret {A} (a : A) : M A := fun tr => (tr, Ok a).

Definition bind {A B} (m : M A) (k : A -> M B) : M B :=
  fun tr => match m tr with
            | (tr', Ok a) => k a tr'
            | (tr', Raise e) => (tr', Raise e)
            end.

Definition raise {A} (e : exn) : M A := fun tr => (tr, Raise e).

Definition emit (e : event) : M unit := fun tr => (app tr [e], Ok tt).

(** [try: ... except Exception as e: logger.error(...); raise] *)
Definition try_reraise {A} (m : M A) : M A :=
  fun tr => match m tr with
            | (tr', Ok a) => (tr', Ok a)
            | (tr', Raise e) => (tr', Raise e)
            end.

Notation "x <- m ;; k" := (bind m (fun x => k))
  (at level 61, m at next level, right associativity).
Notation "m ;;; k" := (bind m (fun _ : unit => k))
  (at level 61, right associativity).

(* ------------------------------------------------------------------ *)
(** ** The agents and the task *)
Section Pipeline.

(** The language-model backend ([self.agent.execute_task] of CrewAI):
    a text or a raised exception, per agent and prompt. *)
Variable llm : agent -> string -> result string.
(** [datetime.now().isoformat()] at the time of the call. *)
Variable now : string.
(** [settings.secret_key] *)
Variable secret_key : string.

(** [BaseAgent.execute_task] with [context=None]. *)
Definition execute_task (who : agent) (task_description : string) : M string :=
  fun tr => (app tr [EvCompletion who task_description], llm who task_description).

(** [ResearchAgent.validate_input] and [WriterAgent.validate_input] on a
    [str]: [len(input_data.strip()) > 0]. *)
Definition validate_input (input_data : string) : bool :=
  negb (String.eqb (strip input_data) EmptyString).

(** [ResearchAgent.research_topic] *)
Definition research_topic (topic research_depth content_type target_audience : string)
  : M pydict :=
  if negb (validate_input topic) then raise (ValueError "Topic cannot be empty")
  else
    result <- execute_task ResearchSpecialist
                (research_prompt topic research_depth content_type target_audience) ;;
    ret (parse_research_result result topic).

(** [WriterAgent.create_content_draft]; the result goes through
    [postprocess_output], i.e. [strip]. *)
Definition create_content_draft (topic content_type target_audience : string)
    (word_count : Z) (tone : string) (keywords : option (list string))
    (additional_requirements : option string) : M string :=
  if negb (validate_input topic) then raise (ValueError "Topic cannot be empty")
  else
    result <- execute_task ContentWriter
                (writer_prompt topic content_type target_audience word_count tone
                   keywords additional_requirements) ;;
    ret (strip result).

(** [ContentCreationTask._conduct_research] *)
Definition conduct_research (topic content_type target_audience research_depth : string)
  : M pydict :=
  emit (EvConductResearch topic) ;;;
  research_topic topic research_depth content_type target_audience.

(** [keywords or []] *)
Definition keywords_or_empty (keywords : option (list string)) : list string :=
  match keywords with
  | Some (k :: ks) => k :: ks
  | _ => []
  end.

(** [ContentCreationTask._create_draft] *)
Definition create_draft (topic content_type target_audience : string) (word_count : Z)
    (tone : string) (keywords : option (list string)) (research_data : pydict)
  : M DraftResult :=
  emit (EvCreateDraft topic) ;;;
  let additional_requirements := prepare_research_requirements research_data in
  content_draft <- create_content_draft topic content_type target_audience word_count tone
                     keywords (Some additional_requirements) ;;
  ret {| draft_content := content_draft;
         research_incorporated := true;
         word_count_actual := length (split_ws content_draft);
         keywords_used := keywords_or_empty keywords |}.

(** [ContentCreationTask.create_content] *)
Definition create_content (topic content_type target_audience : string) (word_count : Z)
    (tone : string) (keywords : option (list string)) (research_depth : string)
  : M ContentRecord :=
  try_reraise (
    research_result <- conduct_research topic content_type target_audience research_depth ;;
    content_result <- create_draft topic content_type target_audience word_count tone
                        keywords research_result ;;
    ret {| cr_topic := topic;
           cr_content_type := content_type;
           cr_target_audience := target_audience;
           cr_word_count := word_count;
           cr_tone := tone;
           cr_keywords := keywords;
           cr_research_data := research_result;
           cr_content := content_result;
           cr_creation_timestamp := now;
           cr_status := "completed" |}).

(** The pydantic model [ContentRequest] of the endpoint. *)
Record ContentRequest : Type := {
  req_topic : string;
  req_content_type : string;
  req_target_audience : string;
  req_word_count : Z;
  req_tone : string;
  req_keywords : option (list string);
  req_research_depth : string
}.

(** [get_api_key]: the [X-API-Key] header, absent as [None]. *)
Definition get_api_key (api_key : option string) : M (option string) :=
  match api_key with
  | Some k => if String.eqb k secret_key then ret api_key
              else raise (HTTPException 401 "Invalid API Key")
  | None => raise (HTTPException 401 "Invalid API Key")
  end.

(** [ContentCreationTask.validate_input] on [request.dict()]: the key
    [topic] is always present, so only [not input_data["topic"]] can fail. *)
Definition task_validate_input (request : ContentRequest) : bool :=
  negb (String.eqb (req_topic request) EmptyString).

(** The endpoint [POST /content/create]: the dependency [get_api_key]
    runs before the body of the handler. *)
Definition endpoint_create_content (api_key : option string) (request : ContentRequest)
  : M ContentRecord :=
  _ <- get_api_key api_key ;;
  if negb (task_validate_input request)
  then raise (HTTPException 400 "Invalid input data")
  else create_content (req_topic request) (req_content_type request)
         (req_target_audience request) (req_word_count request) (req_tone request)
         (req_keywords request) (req_research_depth request).

End Pipeline.

(* ------------------------------------------------------------------ *)
(** ** Definitions following the specification's words *)

(** "The number of whitespace-separated tokens": the positions holding a
    non-whitespace character that is first or follows whitespace.
    [after_space] says whether the previous character was whitespace (or
    absent). *)
Fixpoint count_tokens (after_space : bool) (s : string) : nat :=
  match s with
  | EmptyString => 0
  | String c r =>
      (if negb (is_space c) && after_space then 1 else 0)
      + count_tokens (is_space c) r
  end.

Definition whitespace_tokens (s : string) : nat := count_tokens true s.

(** "Contains the keyword as a case-insensitive substring". *)
Definition ci_contains (keyword line : string) : bool :=
  contains (lower keyword) (lower line).

Definition line_matches (keywords : list string) (line : string) : bool :=
  existsb (fun keyword => ci_contains keyword line) keywords.

(** The requirements line of one group: its label, then the entries
    joined by a comma and a space. *)
Definition labeled_line (label : string) (entries : list string) : string :=
  label ++ ": " ++ join ", " entries.

(** A stub backend: the research call answers [research_text], the
    writer call answers [draft_text]. *)
Definition stub_llm (research_text draft_text : string) (who : agent) (prompt : string)
  : result string :=
  match who with
  | ResearchSpecialist => Ok research_text
  | ContentWriter => Ok draft_text
  end.

(** A backend whose research call fails. *)
Definition failing_research_llm (reason draft_text : string) (who : agent) (prompt : string)
  : result string :=
  match who with
  | ResearchSpecialist => Raise (UpstreamFailure reason)
  | ContentWriter => Ok draft_text
  end.

(* ------------------------------------------------------------------ *)
(** ** More of [ResearchAgent] and [WriterAgent] *)

Definition is_digit (c : ascii) : bool :=
  let n := nat_of_ascii c in ((48 <=? n) && (n <=? 57))%nat.

Definition starts_with_digit (s : string) : bool :=
  match s with String c _ => is_digit c | EmptyString => false end.

(** [[:\s]*] of the score pattern, greedy. *)
Fixpoint skip_colon_space (s : string) : string :=
  match s with
  | EmptyString => EmptyString
  | String c r =>
      if Ascii.eqb c ":" || is_space c then skip_colon_space r else s
  end.

(** [(\d+)] of the score pattern, greedy: the digits at the front. *)
Fixpoint take_digits (s : string) : string :=
  match s with
  | EmptyString => EmptyString
  | String c r => if is_digit c then String c (take_digits r) else EmptyString
  end.

(** [int(ds)] on a non-empty string of ASCII digits. *)
Definition py_int (ds : string) : nat :=
  match NilZero.uint_of_string ds with
  | Some u => Nat.of_uint u
  | None => 0
  end.

(** [re.match(r'accuracy[:\s]*(\d+)', s)] anchored at the start of [s]:
    [[:\s]] and [\d] share no character, so backtracking inside
    [[:\s]*] never helps; group 1 is the maximal digit run. *)
Definition match_accuracy_at (s : string) : option nat :=
  if String.prefix "accuracy" s then
    match take_digits (skip_colon_space (String.substring 8 (String.length s - 8) s)) with
    | EmptyString => None
    | ds => Some (py_int ds)
    end
  else None.

(** [re.search]: the leftmost position where the pattern matches. *)
Fixpoint search_accuracy (s : string) : option nat :=
  match match_accuracy_at s with
  | Some n => Some n
  | None => match s with
            | EmptyString => None
            | String _ r => search_accuracy r
            end
  end.

(** [ResearchAgent._extract_accuracy_score] *)
Definition extract_accuracy_score (text : string) : option nat :=
  search_accuracy (lower text).

(** [_extract_quotes]: keeps a line holding a double quote or an
    apostrophe, without [lower]. *)
Fixpoint extract_quote_lines (lines : list string) (out : list string) : list string :=
  match lines with
  | [] => out
  | line :: rest =>
      let out := if contains dq line || contains "'" line
                 then app out [strip line] else out in
      extract_quote_lines rest out
  end.

Definition extract_quotes (text : string) : list string :=
  extract_quote_lines (split_on newline_char text) [].

(** [_extract_credentials] *)
Definition extract_credentials (text : string) : list string :=
  extract_lines ["phd"; "professor"; "expert"; "specialist"] (split_on newline_char text) [].

(** [_extract_quote_sources] *)
Definition extract_quote_sources (text : string) : list string :=
  extract_lines ["source"; "interview"; "study"; "report"] (split_on newline_char text) [].

(** [ResearchAgent._parse_quotes_result] *)
Definition parse_quotes_result (quotes_text : string) : pydict :=
  [("expert_quotes", VStr quotes_text);
   ("quotes_list", VList (extract_quotes quotes_text));
   ("expert_credentials", VList (extract_credentials quotes_text));
   ("quote_sources", VList (extract_quote_sources quotes_text))].

(** The task description of [ResearchAgent.find_expert_quotes]. *)
Definition quotes_prompt (topic quote_type : string) : string :=
  tl ("Find relevant " ++ quote_type ++ " expert quotes and insights for: " ++ dq ++ topic ++ dq)
  ++ tl EmptyString ++ tl "Please provide:"
  ++ tl "1. Expert quotes with proper attribution"
  ++ tl "2. Industry leader insights"
  ++ tl "3. Academic expert opinions"
  ++ tl "4. Thought leader perspectives"
  ++ tl "5. Controversial or opposing viewpoints"
  ++ tl "6. Historical expert commentary"
  ++ tl "7. Future predictions from experts"
  ++ tl "8. Expert credentials and credibility"
  ++ tl "9. Quote context and relevance"
  ++ tl "10. Source verification and reliability"
  ++ tl EmptyString.

(** [ResearchAgent.find_expert_quotes]: no [validate_input] here. *)
Definition find_expert_quotes (llm : agent -> string -> result string)
    (topic quote_type : string) : M pydict :=
  result <- execute_task llm ResearchSpecialist (quotes_prompt topic quote_type) ;;
  ret (parse_quotes_result result).

(** [new_length] of type [Optional[int]] is truthy when it is not
    [None] and not [0]. *)
Definition int_truthy (n : option Z) : bool :=
  match n with Some z => negb (Z.eqb z 0) | None => false end.

(** The task description of [WriterAgent.rewrite_content]. *)
Definition rewrite_prompt (original_content : string) (new_tone new_audience : option string)
    (new_length : option Z) : string :=
  let task_description :=
    tl "Rewrite the following content with the specified changes:"
    ++ tl EmptyString ++ tl "Original Content:" ++ tl original_content ++ tl EmptyString in
  let task_description :=
    if str_truthy new_tone
    then task_description ++ nl ++ "- New Tone: "
         ++ (match new_tone with Some t => t | None => EmptyString end)
    else task_description in
  let task_description :=
    if str_truthy new_audience
    then task_description ++ nl ++ "- New Target Audience: "
         ++ (match new_audience with Some a => a | None => EmptyString end)
    else task_description in
  let task_description :=
    if int_truthy new_length
    then task_description ++ nl ++ "- New Target Length: "
         ++ of_Z (match new_length with Some l => l | None => 0%Z end) ++ " words"
    else task_description in
  task_description
    ++ tl EmptyString ++ tl "Please ensure the rewritten content:"
    ++ tl "1. Maintains the core message and key points"
    ++ tl "2. Adapts to the new specifications"
    ++ tl "3. Flows naturally and reads well"
    ++ tl "4. Is engaging and informative"
    ++ tl EmptyString.

(** [WriterAgent.rewrite_content] *)
Definition rewrite_content (llm : agent -> string -> result string)
    (original_content : string) (new_tone new_audience : option string)
    (new_length : option Z) : M string :=
  result <- execute_task llm ContentWriter
              (rewrite_prompt original_content new_tone new_audience new_length) ;;
  ret (strip result).

(** Count of one character in a string. *)
Fixpoint count_char (c : ascii) (s : string) : nat :=
  match s with
  | EmptyString => 0
  | String c' r => (if Ascii.eqb c' c then 1 else 0) + count_char c r
  end.


(** [s.rstrip()]; [strip] is [rstrip] after [lstrip]. *)
Definition rstrip (s : string) : string := rev_str (lstrip (rev_str s)).

(* ------------------------------------------------------------------ *)
(** ** Lemmas *)

Lemma str_app_assoc (a b c : string) : (a ++ b) ++ c = a ++ (b ++ c).
Proof. induction a as [|x a IH]; simpl; [reflexivity | now rewrite IH]. Qed.

Lemma str_app_nil_r (a : string) : a ++ EmptyString = a.
Proof. induction a as [|x a IH]; simpl; [reflexivity | now rewrite IH]. Qed.

Lemma str_app_cons_nonempty (a : string) (c : ascii) : a ++ String c EmptyString <> EmptyString.
Proof. destruct a; discriminate. Qed.

(** [s.split()] yields one token per token start of the specification's
    count, plus the token being read. *)
Lemma split_ws_go_length (s cur : string) :
  length (split_ws_go cur s)
  = (match cur with EmptyString => 0 | _ => 1 end)
    + count_tokens (match cur with EmptyString => true | _ => false end) s.
Proof.
  revert cur; induction s as [|c r IH]; intros cur; simpl.
  - destruct cur; reflexivity.
  - destruct (is_space c) eqn:Hc; simpl.
    + destruct cur; simpl; rewrite IH; reflexivity.
    + rewrite IH.
      destruct (cur ++ String c EmptyString) eqn:E.
      * exfalso; exact (str_app_cons_nonempty cur c E).
      * destruct cur; simpl; lia.
Qed.

Lemma split_ws_length (s : string) : length (split_ws s) = whitespace_tokens s.
Proof. unfold split_ws, whitespace_tokens; rewrite split_ws_go_length; reflexivity. Qed.

(** The extraction loop is a filter followed by [strip]. *)
Lemma extract_lines_filter (keywords lines out : list string) :
  extract_lines keywords lines out
  = app out (map strip (filter (fun line => existsb (fun k => contains k (lower line)) keywords) lines)).
Proof.
  revert out; induction lines as [|line rest IH]; intros out; simpl.
  - now rewrite app_nil_r.
  - rewrite IH.
    destruct (existsb (fun k => contains k (lower line)) keywords); simpl.
    + now rewrite <- app_assoc.
    + reflexivity.
Qed.

(** The keyword sets are already lower case. *)
Lemma lower_keywords (keywords : list string) :
  In keywords [key_facts_keywords; sources_keywords; insights_keywords;
               recommendations_keywords] ->
  map lower keywords = keywords.
Proof.
  simpl; intros [H|[H|[H|[H|[]]]]]; subst; reflexivity.
Qed.

Lemma existsb_lower (keywords : list string) (line : string) :
  map lower keywords = keywords ->
  existsb (fun k => contains k (lower line)) keywords = line_matches keywords line.
Proof.
  intros H; unfold line_matches, ci_contains.
  rewrite <- H at 1; clear H.
  induction keywords as [|k ks IH]; simpl; [reflexivity | now rewrite IH].
Qed.

(** One run of [create_content], step by step. *)
Lemma create_content_unfold llm now topic content_type target_audience word_count tone
    keywords research_depth tr :
  create_content llm now topic content_type target_audience word_count tone keywords
    research_depth tr =
  if negb (validate_input topic)
  then (app tr [EvConductResearch topic], Raise (ValueError "Topic cannot be empty"))
  else
    let rp := research_prompt topic research_depth content_type target_audience in
    let tr1 := app (app tr [EvConductResearch topic]) [EvCompletion ResearchSpecialist rp] in
    match llm ResearchSpecialist rp with
    | Raise e => (tr1, Raise e)
    | Ok text =>
        let rd := parse_research_result text topic in
        let wp := writer_prompt topic content_type target_audience word_count tone keywords
                    (Some (prepare_research_requirements rd)) in
        let tr2 := app (app tr1 [EvCreateDraft topic]) [EvCompletion ContentWriter wp] in
        match llm ContentWriter wp with
        | Raise e => (tr2, Raise e)
        | Ok d =>
            (tr2, Ok {| cr_topic := topic;
                        cr_content_type := content_type;
                        cr_target_audience := target_audience;
                        cr_word_count := word_count;
                        cr_tone := tone;
                        cr_keywords := keywords;
                        cr_research_data := rd;
                        cr_content := {| draft_content := strip d;
                                         research_incorporated := true;
                                         word_count_actual := length (split_ws (strip d));
                                         keywords_used := keywords_or_empty keywords |};
                        cr_creation_timestamp := now;
                        cr_status := "completed" |})
        end
    end.
Proof.
  unfold create_content, try_reraise, conduct_research, create_draft, research_topic,
    create_content_draft, execute_task, emit, bind, ret, raise.
  destruct (validate_input topic); simpl; [|reflexivity].
  destruct (llm ResearchSpecialist _) as [text|e]; [|reflexivity].
  destruct (llm ContentWriter _) as [d|e]; reflexivity.
Qed.

(* ------------------------------------------------------------------ *)
(** ** Claims about the orchestrator *)

(** C1: with [key_facts], [sources] and [insights] present as lists, the
    requirements block given to the Draft step is the labeled line of the
    first 5 key facts, then the first 3 sources, then the first 3 insights,
    one per line, each group joined by commas; with more than 5 key facts
    exactly the first 5 appear in the Key Facts line. *)
Theorem prepare_research_requirements_first_entries (research_data : pydict)
    (key_facts sources insights : list string)
    (Hk : dict_get research_data "key_facts" = Some (VList key_facts))
    (Hs : dict_get research_data "sources" = Some (VList sources))
    (Hi : dict_get research_data "insights" = Some (VList insights)) :
  prepare_research_requirements research_data
  = labeled_line "Key Facts" (firstn 5 key_facts) ++ nl
    ++ labeled_line "Credible Sources" (firstn 3 sources) ++ nl
    ++ labeled_line "Key Insights" (firstn 3 insights)
  /\ (forall k1 k2 k3 k4 k5 k6 rest,
        key_facts = k1 :: k2 :: k3 :: k4 :: k5 :: k6 :: rest ->
        prepare_research_requirements research_data
        = "Key Facts: " ++ k1 ++ ", " ++ k2 ++ ", " ++ k3 ++ ", " ++ k4 ++ ", " ++ k5
          ++ nl ++ labeled_line "Credible Sources" (firstn 3 sources)
          ++ nl ++ labeled_line "Key Insights" (firstn 3 insights)).
Proof.
  assert (E : prepare_research_requirements research_data
              = labeled_line "Key Facts" (firstn 5 key_facts) ++ nl
                ++ labeled_line "Credible Sources" (firstn 3 sources) ++ nl
                ++ labeled_line "Key Insights" (firstn 3 insights)).
  { unfold prepare_research_requirements, dict_has.
    rewrite Hk, Hs, Hi. cbn -[append join firstn labeled_line].
    unfold labeled_line; rewrite !str_app_assoc; reflexivity. }
  split; [exact E|].
  intros k1 k2 k3 k4 k5 k6 rest Hkf.
  rewrite E, Hkf; unfold labeled_line; cbn [firstn join].
  rewrite !str_app_assoc; reflexivity.
Qed.

(** C2: in every record that [create_content] returns,
    [content.word_count_actual] is the number of whitespace-separated
    tokens of [content.draft_content], whatever [word_count] was asked. *)
Theorem create_content_word_count_actual llm now topic content_type target_audience
    word_count tone keywords research_depth tr tr' (r : ContentRecord)
    (H : create_content llm now topic content_type target_audience word_count tone
           keywords research_depth tr = (tr', Ok r)) :
  word_count_actual (cr_content r) = whitespace_tokens (draft_content (cr_content r)).
Proof.
  rewrite create_content_unfold in H.
  destruct (negb (validate_input topic)); [discriminate|].
  cbv zeta in H.
  destruct (llm ResearchSpecialist _) as [text|e]; [|discriminate].
  destruct (llm ContentWriter _) as [d|e]; [|discriminate].
  injection H as _ <-; simpl. apply split_ws_length.
Qed.

(** C3: a topic that is empty after [strip] makes [create_content] raise
    the [ValueError] of [research_topic] before any call of the backend:
    neither agent's completion call is made and the Draft step is never
    entered. *)
Theorem create_content_empty_topic llm now topic content_type target_audience word_count
    tone keywords research_depth
    (H : strip topic = EmptyString) :
  let '(tr, res) := create_content llm now topic content_type target_audience word_count
                      tone keywords research_depth [] in
  res = Raise (ValueError "Topic cannot be empty")
  /\ (forall who prompt, ~ In (EvCompletion who prompt) tr)
  /\ (forall t, ~ In (EvCreateDraft t) tr).
Proof.
  rewrite create_content_unfold.
  unfold validate_input; rewrite H; simpl.
  split; [reflexivity|].
  split; intros; intros [E|[]]; discriminate.
Qed.

(** C4: when the research call of the backend raises an upstream failure,
    [create_content] raises that same exception, produces no record, and
    neither enters the Draft step nor calls the writer. *)
Theorem create_content_research_failure llm now topic content_type target_audience
    word_count tone keywords research_depth reason
    (Hv : strip topic <> EmptyString)
    (Hr : llm ResearchSpecialist (research_prompt topic research_depth content_type
                                    target_audience) = Raise (UpstreamFailure reason)) :
  let '(tr, res) := create_content llm now topic content_type target_audience word_count
                      tone keywords research_depth [] in
  res = Raise (UpstreamFailure reason)
  /\ (forall t, ~ In (EvCreateDraft t) tr)
  /\ (forall prompt, ~ In (EvCompletion ContentWriter prompt) tr).
Proof.
  rewrite create_content_unfold.
  unfold validate_input; apply String.eqb_neq in Hv; rewrite Hv; simpl.
  rewrite Hr.
  split; [reflexivity|].
  split; intros; simpl; intros [E|[E|[]]]; discriminate.
Qed.

(** C6: for a non-empty topic the research call is made and answered
    before the Draft step is entered, and the writer's prompt is built
    from the parsed research answer (its requirements block); the record
    carries that same research result. *)
Theorem create_content_research_before_draft llm now topic content_type target_audience
    word_count tone keywords research_depth
    (Hv : strip topic <> EmptyString) :
  let rp := research_prompt topic research_depth content_type target_audience in
  let '(tr, res) := create_content llm now topic content_type target_audience word_count
                      tone keywords research_depth [] in
  (exists e, llm ResearchSpecialist rp = Raise e
             /\ tr = [EvConductResearch topic; EvCompletion ResearchSpecialist rp]
             /\ res = Raise e)
  \/ (exists text, llm ResearchSpecialist rp = Ok text
       /\ tr = [EvConductResearch topic; EvCompletion ResearchSpecialist rp;
                EvCreateDraft topic;
                EvCompletion ContentWriter
                  (writer_prompt topic content_type target_audience word_count tone keywords
                     (Some (prepare_research_requirements
                              (parse_research_result text topic))))]
       /\ (forall r, res = Ok r -> cr_research_data r = parse_research_result text topic)).
Proof.
  cbv zeta. rewrite create_content_unfold.
  unfold validate_input; apply String.eqb_neq in Hv; rewrite Hv; simpl.
  destruct (llm ResearchSpecialist _) as [text|e].
  - destruct (llm ContentWriter _) as [d|e]; simpl; right; exists text;
      (split; [reflexivity|]); (split; [reflexivity|]).
    + intros r Hr; injection Hr as <-; reflexivity.
    + intros r Hr; discriminate.
  - left. exists e. repeat split; reflexivity.
Qed.

(** C10: every successful Draft step sets [research_incorporated] to
    [True], whatever the research data holds, and [keywords_used] to the
    requested keywords, or the empty list when they are absent or empty. *)
Theorem create_draft_result_fields llm topic content_type target_audience word_count tone
    keywords research_data tr tr' (dr : DraftResult)
    (H : create_draft llm topic content_type target_audience word_count tone keywords
           research_data tr = (tr', Ok dr)) :
  research_incorporated dr = true
  /\ keywords_used dr = match keywords with Some l => l | None => [] end.
Proof.
  unfold create_draft, create_content_draft, execute_task, emit, bind, ret, raise in H.
  destruct (negb (validate_input topic)); [discriminate|].
  destruct (llm ContentWriter _) as [d|e]; [|discriminate].
  injection H as _ <-; simpl. split; [reflexivity|].
  destruct keywords as [[|k ks]|]; reflexivity.
Qed.

(** The requirements block when the three groups are empty. *)
Definition empty_groups_block : string :=
  "Key Facts: " ++ nl ++ "Credible Sources: " ++ nl ++ "Key Insights: ".

(** C5 (as amended): when the research answer yields no key facts, no
    sources and no insights, the requirements block is not empty but the
    three bare labels, one per line; it is passed to the writer as its
    additional requirements and the Draft step completes normally. *)
Theorem create_content_empty_research llm now topic content_type target_audience
    word_count tone keywords research_depth text d
    (Hv : strip topic <> EmptyString)
    (Hr : llm ResearchSpecialist (research_prompt topic research_depth content_type
                                    target_audience) = Ok text)
    (Hk : extract_key_facts text = [])
    (Hs : extract_sources text = [])
    (Hi : extract_insights text = [])
    (Hw : llm ContentWriter (writer_prompt topic content_type target_audience word_count tone
                               keywords (Some empty_groups_block)) = Ok d) :
  prepare_research_requirements (parse_research_result text topic) = empty_groups_block
  /\ exists r, snd (create_content llm now topic content_type target_audience word_count
                     tone keywords research_depth []) = Ok r
               /\ draft_content (cr_content r) = strip d.
Proof.
  assert (E : prepare_research_requirements (parse_research_result text topic)
              = empty_groups_block).
  { unfold parse_research_result. rewrite Hk, Hs, Hi. reflexivity. }
  split; [exact E|].
  rewrite create_content_unfold.
  unfold validate_input; apply String.eqb_neq in Hv; rewrite Hv.
  cbv zeta; cbn [negb]. rewrite Hr, E, Hw.
  eexists; split; reflexivity.
Qed.

(** C5 fails as stated: a research answer with no fact, source or insight
    line gives empty groups, yet the requirements block is not the empty
    string. *)
Lemma prepare_research_requirements_empty_groups_not_empty :
  let rd := parse_research_result "Nothing relevant here." "electric vehicles" in
  dict_get rd "key_facts" = Some (VList [])
  /\ dict_get rd "sources" = Some (VList [])
  /\ dict_get rd "insights" = Some (VList [])
  /\ prepare_research_requirements rd <> EmptyString.
Proof.
  vm_compute. split; [reflexivity|]. split; [reflexivity|]. split; [reflexivity|].
  discriminate.
Qed.

(* ------------------------------------------------------------------ *)
(** ** Claims about the research agent *)

(** C7 (as amended): each extractor keeps, in text order, the stripped
    form of exactly the lines of [text.split('\n')] that contain one of its
    keywords as a case-insensitive substring; a line can fall in two
    buckets, or in none. *)
Theorem extractors_keep_matching_lines (text : string) :
  let lines := split_on newline_char text in
  extract_key_facts text = map strip (filter (line_matches key_facts_keywords) lines)
  /\ extract_sources text = map strip (filter (line_matches sources_keywords) lines)
  /\ extract_insights text = map strip (filter (line_matches insights_keywords) lines)
  /\ extract_recommendations text
     = map strip (filter (line_matches recommendations_keywords) lines)
  /\ line_matches key_facts_keywords "Study DATA" = true
  /\ line_matches sources_keywords "Study DATA" = true
  /\ line_matches key_facts_keywords "Hello" = false
  /\ line_matches sources_keywords "Hello" = false
  /\ line_matches insights_keywords "Hello" = false
  /\ line_matches recommendations_keywords "Hello" = false.
Proof.
  cbv zeta.
  assert (F : forall keywords,
             In keywords [key_facts_keywords; sources_keywords; insights_keywords;
                          recommendations_keywords] ->
             extract_lines keywords (split_on newline_char text) []
             = map strip (filter (line_matches keywords) (split_on newline_char text))).
  { intros keywords Hin.
    rewrite extract_lines_filter; simpl app.
    f_equal. apply filter_ext. intros line.
    apply existsb_lower, lower_keywords, Hin. }
  unfold extract_key_facts, extract_sources, extract_insights, extract_recommendations.
  repeat split; try (apply F; simpl; tauto); vm_compute; reflexivity.
Qed.

(** C7 fails as stated: the bucket holds the stripped line, not the line
    of the text itself. *)
Lemma extract_key_facts_strips_lines :
  let lines := split_on newline_char "  A fact  " in
  lines = ["  A fact  "]
  /\ extract_key_facts "  A fact  " = ["A fact"]
  /\ extract_key_facts "  A fact  " <> filter (line_matches key_facts_keywords) lines.
Proof.
  vm_compute. split; [reflexivity|]. split; [reflexivity|]. discriminate.
Qed.

(** C8 (as amended): a successful research step returns the dict with
    exactly the keys [topic], [research_findings] (the raw answer),
    [key_facts], [sources], [insights] and [recommendations], the last
    four holding lists of strings. *)
Theorem research_topic_result_fields llm topic research_depth content_type target_audience
    tr tr' (d : pydict)
    (H : research_topic llm topic research_depth content_type target_audience tr
         = (tr', Ok d)) :
  map fst d = ["topic"; "research_findings"; "key_facts"; "sources"; "insights";
               "recommendations"]
  /\ dict_get d "topic" = Some (VStr topic)
  /\ (exists raw, llm ResearchSpecialist (research_prompt topic research_depth content_type
                                            target_audience) = Ok raw
                  /\ dict_get d "research_findings" = Some (VStr raw))
  /\ (exists key_facts sources insights recommendations,
        dict_get d "key_facts" = Some (VList key_facts)
        /\ dict_get d "sources" = Some (VList sources)
        /\ dict_get d "insights" = Some (VList insights)
        /\ dict_get d "recommendations" = Some (VList recommendations)).
Proof.
  unfold research_topic, execute_task, bind, ret, raise in H.
  destruct (negb (validate_input topic)); [discriminate|].
  destruct (llm ResearchSpecialist _) as [raw|e] eqn:Er; [|discriminate].
  injection H as _ <-.
  split; [reflexivity|]. split; [reflexivity|].
  split; [exists raw; split; reflexivity|].
  do 4 eexists; repeat split; reflexivity.
Qed.

(** C8 fails as stated: the research dict has no key [raw_text]; the raw
    answer is stored under [research_findings]. *)
Lemma research_topic_has_no_raw_text :
  match snd (research_topic (stub_llm "A key fact." "Draft.") "electric vehicles"
               "comprehensive" "article" "general" []) with
  | Ok d => dict_has d "raw_text" = false /\ dict_has d "research_findings" = true
  | Raise _ => False
  end.
Proof. vm_compute. split; reflexivity. Qed.

(* ------------------------------------------------------------------ *)
(** ** Claim about the endpoint *)

(** C9: a request whose [X-API-Key] header is absent or differs from
    [settings.secret_key] is rejected with a 401 before [create_content]
    runs: the trace is left as it was, so no step is entered and no
    backend call is made. *)
Theorem endpoint_rejects_wrong_api_key llm now secret_key api_key request tr
    (H : api_key <> Some secret_key) :
  endpoint_create_content llm now secret_key api_key request tr
  = (tr, Raise (HTTPException 401 "Invalid API Key")).
Proof.
  unfold endpoint_create_content, get_api_key, bind, raise.
  destruct api_key as [k|]; [|reflexivity].
  destruct (String.eqb k secret_key) eqn:E; [|reflexivity].
  apply String.eqb_eq in E; subst; contradiction.
Qed.

(* ------------------------------------------------------------------ *)
(** ** The claims at concrete inputs *)

Lemma prepare_research_requirements_first_entries_witness :
  let rd := [("topic", VStr "electric vehicles");
             ("key_facts", VList ["F1"; "F2"; "F3"; "F4"; "F5"; "F6"; "F7"]);
             ("sources", VList ["S1"]);
             ("insights", VList ["I1"; "I2"; "I3"; "I4"])] in
  dict_get rd "key_facts" = Some (VList ["F1"; "F2"; "F3"; "F4"; "F5"; "F6"; "F7"])
  /\ dict_get rd "sources" = Some (VList ["S1"])
  /\ dict_get rd "insights" = Some (VList ["I1"; "I2"; "I3"; "I4"])
  /\ prepare_research_requirements rd
     = "Key Facts: " ++ "F1" ++ ", " ++ "F2" ++ ", " ++ "F3" ++ ", " ++ "F4" ++ ", " ++ "F5"
       ++ nl ++ labeled_line "Credible Sources" (firstn 3 ["S1"])
       ++ nl ++ labeled_line "Key Insights" (firstn 3 ["I1"; "I2"; "I3"; "I4"]).
Proof.
  intros rd. split; [reflexivity|]. split; [reflexivity|]. split; [reflexivity|].
  apply (proj2 (prepare_research_requirements_first_entries rd
                  ["F1"; "F2"; "F3"; "F4"; "F5"; "F6"; "F7"] ["S1"] ["I1"; "I2"; "I3"; "I4"]
                  eq_refl eq_refl eq_refl)
           "F1" "F2" "F3" "F4" "F5" "F6" ["F7"] eq_refl).
Defined.

Lemma create_content_word_count_actual_witness :
  exists tr' r,
    create_content (stub_llm "A fact." "one two three") "2026-10-19T00:00:00"
      "electric vehicles" "article" "general" 500%Z "professional" None "comprehensive" []
    = (tr', Ok r)
    /\ word_count_actual (cr_content r) = whitespace_tokens (draft_content (cr_content r))
    /\ word_count_actual (cr_content r) = 3.
Proof.
  do 2 eexists. split; [reflexivity|]. split; [|reflexivity].
  apply (create_content_word_count_actual (stub_llm "A fact." "one two three")
           "2026-10-19T00:00:00" "electric vehicles" "article" "general" 500%Z
           "professional" None "comprehensive" [] _ _ eq_refl).
Defined.

Lemma create_content_empty_topic_witness :
  strip "   " = EmptyString
  /\ let '(tr, res) := create_content (stub_llm "A fact." "Draft.") "2026-10-19T00:00:00"
                         "   " "article" "general" 500%Z "professional" None
                         "comprehensive" [] in
     res = Raise (ValueError "Topic cannot be empty")
     /\ (forall who prompt, ~ In (EvCompletion who prompt) tr)
     /\ (forall t, ~ In (EvCreateDraft t) tr).
Proof.
  split; [reflexivity|].
  exact (create_content_empty_topic (stub_llm "A fact." "Draft.") "2026-10-19T00:00:00"
           "   " "article" "general" 500%Z "professional" None "comprehensive" eq_refl).
Defined.

Lemma create_content_research_failure_witness :
  strip "electric vehicles" <> EmptyString
  /\ let '(tr, res) := create_content (failing_research_llm "rate limit" "Draft.")
                         "2026-10-19T00:00:00" "electric vehicles" "article" "general"
                         500%Z "professional" None "comprehensive" [] in
     res = Raise (UpstreamFailure "rate limit")
     /\ (forall t, ~ In (EvCreateDraft t) tr)
     /\ (forall prompt, ~ In (EvCompletion ContentWriter prompt) tr).
Proof.
  assert (Hv : strip "electric vehicles" <> EmptyString) by (vm_compute; discriminate).
  split; [exact Hv|].
  exact (create_content_research_failure (failing_research_llm "rate limit" "Draft.")
           "2026-10-19T00:00:00" "electric vehicles" "article" "general" 500%Z
           "professional" None "comprehensive" "rate limit" Hv eq_refl).
Defined.

Lemma create_content_research_before_draft_witness :
  strip "electric vehicles" <> EmptyString
  /\ let rp := research_prompt "electric vehicles" "comprehensive" "article" "general" in
     let '(tr, res) := create_content (stub_llm "A fact." "Draft.") "2026-10-19T00:00:00"
                         "electric vehicles" "article" "general" 500%Z "professional"
                         (Some ["EV"; "battery"]) "comprehensive" [] in
     (exists e, stub_llm "A fact." "Draft." ResearchSpecialist rp = Raise e
                /\ tr = [EvConductResearch "electric vehicles";
                         EvCompletion ResearchSpecialist rp]
                /\ res = Raise e)
     \/ (exists text, stub_llm "A fact." "Draft." ResearchSpecialist rp = Ok text
          /\ tr = [EvConductResearch "electric vehicles";
                   EvCompletion ResearchSpecialist rp;
                   EvCreateDraft "electric vehicles";
                   EvCompletion ContentWriter
                     (writer_prompt "electric vehicles" "article" "general" 500%Z
                        "professional" (Some ["EV"; "battery"])
                        (Some (prepare_research_requirements
                                 (parse_research_result text "electric vehicles"))))]
          /\ (forall r, res = Ok r
                        -> cr_research_data r
                           = parse_research_result text "electric vehicles")).
Proof.
  assert (Hv : strip "electric vehicles" <> EmptyString) by (vm_compute; discriminate).
  split; [exact Hv|].
  exact (create_content_research_before_draft (stub_llm "A fact." "Draft.")
           "2026-10-19T00:00:00" "electric vehicles" "article" "general" 500%Z
           "professional" (Some ["EV"; "battery"]) "comprehensive" Hv).
Defined.

Lemma create_content_empty_research_witness :
  let llm := stub_llm "Nothing relevant here." "  A short draft.  " in
  strip "electric vehicles" <> EmptyString
  /\ llm ResearchSpecialist (research_prompt "electric vehicles" "comprehensive" "article"
                               "general") = Ok "Nothing relevant here."
  /\ extract_key_facts "Nothing relevant here." = []
  /\ extract_sources "Nothing relevant here." = []
  /\ extract_insights "Nothing relevant here." = []
  /\ llm ContentWriter (writer_prompt "electric vehicles" "article" "general" 500%Z
                          "professional" None (Some empty_groups_block))
     = Ok "  A short draft.  "
  /\ prepare_research_requirements (parse_research_result "Nothing relevant here."
                                      "electric vehicles") = empty_groups_block
  /\ exists r, snd (create_content llm "2026-10-19T00:00:00" "electric vehicles" "article"
                      "general" 500%Z "professional" None "comprehensive" []) = Ok r
               /\ draft_content (cr_content r) = strip "  A short draft.  ".
Proof.
  intros llm.
  assert (Hv : strip "electric vehicles" <> EmptyString) by (vm_compute; discriminate).
  assert (Hk : extract_key_facts "Nothing relevant here." = []) by (vm_compute; reflexivity).
  assert (Hs : extract_sources "Nothing relevant here." = []) by (vm_compute; reflexivity).
  assert (Hi : extract_insights "Nothing relevant here." = []) by (vm_compute; reflexivity).
  split; [exact Hv|]. split; [reflexivity|]. split; [exact Hk|]. split; [exact Hs|].
  split; [exact Hi|]. split; [reflexivity|].
  exact (create_content_empty_research llm "2026-10-19T00:00:00" "electric vehicles"
           "article" "general" 500%Z "professional" None "comprehensive"
           "Nothing relevant here." "  A short draft.  " Hv eq_refl Hk Hs Hi eq_refl).
Defined.

Lemma create_draft_result_fields_witness :
  exists tr' dr,
    create_draft (stub_llm "A fact." "Draft text.") "electric vehicles" "article" "general"
      500%Z "professional" (Some []) [("key_facts", VList [])] [] = (tr', Ok dr)
    /\ research_incorporated dr = true
    /\ keywords_used dr = [].
Proof.
  do 2 eexists. split; [cbv; reflexivity|].
  exact (create_draft_result_fields (stub_llm "A fact." "Draft text.") "electric vehicles"
           "article" "general" 500%Z "professional" (Some []) [("key_facts", VList [])]
           [] _ _ eq_refl).
Defined.

Lemma research_topic_result_fields_witness :
  exists tr' d,
    research_topic (stub_llm "A key fact." "Draft.") "electric vehicles" "comprehensive"
      "article" "general" [] = (tr', Ok d)
    /\ map fst d = ["topic"; "research_findings"; "key_facts"; "sources"; "insights";
                    "recommendations"]
    /\ dict_get d "topic" = Some (VStr "electric vehicles")
    /\ (exists raw, stub_llm "A key fact." "Draft." ResearchSpecialist
                      (research_prompt "electric vehicles" "comprehensive" "article"
                         "general") = Ok raw
                    /\ dict_get d "research_findings" = Some (VStr raw))
    /\ (exists key_facts sources insights recommendations,
          dict_get d "key_facts" = Some (VList key_facts)
          /\ dict_get d "sources" = Some (VList sources)
          /\ dict_get d "insights" = Some (VList insights)
          /\ dict_get d "recommendations" = Some (VList recommendations)).
Proof.
  do 2 eexists. split; [cbv; reflexivity|].
  exact (research_topic_result_fields (stub_llm "A key fact." "Draft.") "electric vehicles"
           "comprehensive" "article" "general" [] _ _ eq_refl).
Defined.

Lemma endpoint_rejects_wrong_api_key_witness :
  let request := {| req_topic := "electric vehicles"; req_content_type := "article";
                    req_target_audience := "general"; req_word_count := 500%Z;
                    req_tone := "professional"; req_keywords := None;
                    req_research_depth := "comprehensive" |} in
  Some "wrong-key" <> Some "s3cret"
  /\ endpoint_create_content (stub_llm "A fact." "Draft.") "2026-10-19T00:00:00" "s3cret"
       (Some "wrong-key") request []
     = ([], Raise (HTTPException 401 "Invalid API Key")).
Proof.
  intros request.
  assert (H : Some "wrong-key" <> Some "s3cret") by discriminate.
  split; [exact H|].
  exact (endpoint_rejects_wrong_api_key (stub_llm "A fact." "Draft.") "2026-10-19T00:00:00"
           "s3cret" (Some "wrong-key") request [] H).
Defined.

(* ------------------------------------------------------------------ *)
(** ** Lemmas on [strip] *)

Lemma rev_str_app (a b : string) : rev_str (a ++ b) = rev_str b ++ rev_str a.
Proof.
  induction a as [|c a IH]; simpl.
  - now rewrite str_app_nil_r.
  - now rewrite IH, str_app_assoc.
Qed.

Lemma rev_str_involutive (s : string) : rev_str (rev_str s) = s.
Proof.
  induction s as [|c s IH]; simpl; [reflexivity|].
  rewrite rev_str_app, IH; reflexivity.
Qed.

Lemma rev_str_empty (s : string) : rev_str s = EmptyString -> s = EmptyString.
Proof.
  intros H. rewrite <- (rev_str_involutive s), H. reflexivity.
Qed.

Lemma lstrip_idem (s : string) : lstrip (lstrip s) = lstrip s.
Proof.
  induction s as [|c s IH]; simpl; [reflexivity|].
  destruct (is_space c) eqn:E; [exact IH|]. simpl; now rewrite E.
Qed.

Lemma lstrip_app (a b : string) :
  lstrip (a ++ b) = match lstrip a with EmptyString => lstrip b | x => x ++ b end.
Proof.
  induction a as [|c a IH]; simpl; [reflexivity|].
  destruct (is_space c); [exact IH | reflexivity].
Qed.

Lemma lstrip_head (s r : string) (c : ascii) : lstrip s = String c r -> is_space c = false.
Proof.
  induction s as [|c' s IH]; simpl; [discriminate|].
  destruct (is_space c') eqn:E; [exact IH|].
  intros H; injection H as -> _; exact E.
Qed.

Lemma strip_rstrip_lstrip (s : string) : strip s = rstrip (lstrip s).
Proof. reflexivity. Qed.

Lemma rstrip_cons (c : ascii) (r : string) :
  rstrip (String c r)
  = match rstrip r with
    | EmptyString => if is_space c then EmptyString else String c EmptyString
    | x => String c x
    end.
Proof.
  unfold rstrip; simpl rev_str. rewrite lstrip_app.
  destruct (lstrip (rev_str r)) as [|c' x] eqn:E; simpl.
  - destruct (is_space c); reflexivity.
  - rewrite rev_str_app. simpl.
    destruct (rev_str x ++ String c' EmptyString) eqn:F; [|reflexivity].
    exfalso; exact (str_app_cons_nonempty _ _ F).
Qed.

Lemma rstrip_idem (s : string) : rstrip (rstrip s) = rstrip s.
Proof. unfold rstrip. now rewrite rev_str_involutive, lstrip_idem. Qed.

Lemma lstrip_rstrip_lstrip (s : string) : lstrip (rstrip (lstrip s)) = rstrip (lstrip s).
Proof.
  destruct (lstrip s) as [|c r] eqn:E; [reflexivity|].
  pose proof (lstrip_head _ _ _ E) as Hc.
  rewrite rstrip_cons, Hc.
  destruct (rstrip r); simpl; rewrite Hc; reflexivity.
Qed.

(** [strip] is idempotent. *)
Lemma strip_idem (s : string) : strip (strip s) = strip s.
Proof.
  rewrite !strip_rstrip_lstrip, lstrip_rstrip_lstrip, rstrip_idem. reflexivity.
Qed.

Lemma lstrip_empty_iff (s : string) :
  lstrip s = EmptyString <-> forall c, In c (list_ascii_of_string s) -> is_space c = true.
Proof.
  induction s as [|c s IH]; simpl.
  - split; [intros _ c []|reflexivity].
  - destruct (is_space c) eqn:E.
    + rewrite IH. split.
      * intros H c' [<-|Hin]; [exact E | exact (H c' Hin)].
      * intros H c' Hin; apply H; right; exact Hin.
    + split; [discriminate|]. intros H. rewrite (H c (or_introl eq_refl)) in E. discriminate.
Qed.

Lemma strip_empty_iff_lstrip (s : string) : strip s = EmptyString <-> lstrip s = EmptyString.
Proof.
  rewrite strip_rstrip_lstrip.
  destruct (lstrip s) as [|c r] eqn:E; [split; reflexivity|].
  pose proof (lstrip_head _ _ _ E) as Hc.
  rewrite rstrip_cons, Hc. split; [|discriminate].
  destruct (rstrip r); discriminate.
Qed.

(* ------------------------------------------------------------------ *)
(** ** Lemmas on lines *)

Lemma count_char_app (c : ascii) (a b : string) :
  count_char c (a ++ b) = count_char c a + count_char c b.
Proof. induction a as [|c' a IH]; simpl; [reflexivity | rewrite IH; lia]. Qed.

Lemma count_char_rev (c : ascii) (s : string) : count_char c (rev_str s) = count_char c s.
Proof.
  induction s as [|c' s IH]; simpl; [reflexivity|].
  rewrite count_char_app, IH; simpl; lia.
Qed.

Lemma count_char_lstrip (c : ascii) (s : string) : count_char c (lstrip s) <= count_char c s.
Proof.
  induction s as [|c' s IH]; simpl; [lia|].
  destruct (is_space c'); simpl; lia.
Qed.

Lemma count_char_strip_zero (c : ascii) (s : string) :
  count_char c s = 0 -> count_char c (strip s) = 0.
Proof.
  intros H. unfold strip.
  pose proof (count_char_lstrip c s) as H1.
  pose proof (count_char_lstrip c (rev_str (lstrip s))) as H2.
  rewrite count_char_rev in *. lia.
Qed.

Lemma split_on_go_pieces (sep : ascii) (cur s x : string) :
  count_char sep cur = 0 -> In x (split_on_go sep cur s) -> count_char sep x = 0.
Proof.
  revert cur; induction s as [|c s IH]; intros cur Hcur; simpl.
  - intros [<-|[]]; exact Hcur.
  - destruct (Ascii.eqb c sep) eqn:E.
    + intros [<-|Hin]; [exact Hcur | exact (IH EmptyString eq_refl Hin)].
    + apply IH. rewrite count_char_app, Hcur; simpl; rewrite E; reflexivity.
Qed.

Lemma split_on_go_length (sep : ascii) (cur s : string) :
  length (split_on_go sep cur s) = count_char sep s + 1.
Proof.
  revert cur; induction s as [|c s IH]; intros cur; simpl; [reflexivity|].
  destruct (Ascii.eqb c sep); simpl; rewrite IH; lia.
Qed.

Lemma split_on_go_app_nosep (sep : ascii) (cur a s : string) :
  count_char sep a = 0 -> split_on_go sep cur (a ++ s) = split_on_go sep (cur ++ a) s.
Proof.
  revert cur; induction a as [|c a IH]; intros cur H; simpl.
  - now rewrite str_app_nil_r.
  - simpl in H. destruct (Ascii.eqb c sep) eqn:E; [discriminate|].
    rewrite IH by exact H. rewrite str_app_assoc. reflexivity.
Qed.

Lemma split_on_go_nosep (sep : ascii) (cur a : string) :
  count_char sep a = 0 -> split_on_go sep cur a = [cur ++ a].
Proof.
  intros H. rewrite <- (str_app_nil_r a) at 1.
  rewrite split_on_go_app_nosep by exact H. reflexivity.
Qed.

Lemma split_on_go_sep (sep : ascii) (cur s : string) :
  split_on_go sep cur (String sep EmptyString ++ s) = cur :: split_on_go sep EmptyString s.
Proof. simpl. rewrite Ascii.eqb_refl. reflexivity. Qed.

Lemma join_count_zero (c : ascii) (sep : string) (xs : list string) :
  count_char c sep = 0 -> (forall x, In x xs -> count_char c x = 0) ->
  count_char c (join sep xs) = 0.
Proof.
  intros Hs; induction xs as [|x [|y xs] IH]; intros H; simpl; [reflexivity | |].
  - apply H; left; reflexivity.
  - rewrite !count_char_app, Hs, (H x (or_introl eq_refl)).
    simpl in IH; rewrite IH; [reflexivity|].
    intros z Hz; apply H; right; exact Hz.
Qed.

Lemma in_firstn_in {A} (n : nat) (l : list A) (x : A) : In x (firstn n l) -> In x l.
Proof.
  intros H. rewrite <- (firstn_skipn n l). apply in_or_app; left; exact H.
Qed.

(** The entries kept by the extraction loop are stripped lines of the
    text: already stripped, and free of newlines. *)
Lemma extract_lines_entries (keywords : list string) (text x : string) :
  In x (extract_lines keywords (split_on newline_char text) []) ->
  strip x = x /\ count_char newline_char x = 0.
Proof.
  rewrite extract_lines_filter; simpl app.
  intros Hx. apply in_map_iff in Hx as [y [<- Hy]].
  apply filter_In in Hy as [Hy _].
  split; [apply strip_idem|].
  apply count_char_strip_zero.
  exact (split_on_go_pieces newline_char EmptyString text y eq_refl Hy).
Qed.

(** Every list value of the research dict holds extracted lines. *)
Lemma parse_research_result_lists (text topic k : string) (l : list string) :
  dict_get (parse_research_result text topic) k = Some (VList l) ->
  exists keywords, l = extract_lines keywords (split_on newline_char text) [].
Proof.
  unfold parse_research_result, dict_get.
  destruct (String.eqb k "topic"); [discriminate|].
  destruct (String.eqb k "research_findings"); [discriminate|].
  destruct (String.eqb k "key_facts");
    [intros H; injection H as <-; eexists; reflexivity|].
  destruct (String.eqb k "sources");
    [intros H; injection H as <-; eexists; reflexivity|].
  destruct (String.eqb k "insights");
    [intros H; injection H as <-; eexists; reflexivity|].
  destruct (String.eqb k "recommendations");
    [intros H; injection H as <-; eexists; reflexivity|].
  discriminate.
Qed.

(** The requirements block of a dict holding the three lists. *)
Lemma prepare_research_requirements_lines (research_data : pydict)
    (key_facts sources insights : list string) :
  dict_get research_data "key_facts" = Some (VList key_facts) ->
  dict_get research_data "sources" = Some (VList sources) ->
  dict_get research_data "insights" = Some (VList insights) ->
  prepare_research_requirements research_data
  = labeled_line "Key Facts" (firstn 5 key_facts) ++ nl
    ++ labeled_line "Credible Sources" (firstn 3 sources) ++ nl
    ++ labeled_line "Key Insights" (firstn 3 insights).
Proof.
  intros Hk Hs Hi.
  unfold prepare_research_requirements, dict_has.
  rewrite Hk, Hs, Hi. cbn -[append join firstn labeled_line].
  unfold labeled_line; rewrite !str_app_assoc; reflexivity.
Qed.

Lemma forallb_false_exists {A} (f : A -> bool) (l : list A) :
  forallb f l = false <-> exists x, In x l /\ f x = false.
Proof.
  induction l as [|a l IH]; simpl.
  - split; [discriminate | intros [x [[] _]]].
  - destruct (f a) eqn:E; simpl.
    + rewrite IH. split.
      * intros [x [Hx Hf]]; exists x; split; [right; exact Hx | exact Hf].
      * intros [x [[<-|Hx] Hf]]; [congruence | exists x; split; assumption].
    + split; [intros _; exists a; split; [left; reflexivity | exact E] | reflexivity].
Qed.

(* ------------------------------------------------------------------ *)
(** ** Further properties of the code *)

(** Every entry of every list in the research dict is a stripped line of
    the answer: it has no surrounding whitespace and no newline. *)
Theorem research_dict_entries_clean (text topic k : string) (l : list string) (x : string)
    (Hk : dict_get (parse_research_result text topic) k = Some (VList l))
    (Hx : In x l) :
  strip x = x /\ count_char newline_char x = 0.
Proof.
  destruct (parse_research_result_lists _ _ _ _ Hk) as [keywords ->].
  exact (extract_lines_entries keywords text x Hx).
Qed.

(** The requirements block built from any research answer splits on
    newlines into exactly three lines: the Key Facts, Credible Sources
    and Key Insights lines. *)
Theorem requirements_block_three_lines (text topic : string) :
  split_on newline_char (prepare_research_requirements (parse_research_result text topic))
  = [labeled_line "Key Facts" (firstn 5 (extract_key_facts text));
     labeled_line "Credible Sources" (firstn 3 (extract_sources text));
     labeled_line "Key Insights" (firstn 3 (extract_insights text))].
Proof.
  rewrite (prepare_research_requirements_lines _ (extract_key_facts text)
             (extract_sources text) (extract_insights text)) by reflexivity.
  assert (Hl : forall label keywords n,
             count_char newline_char label = 0 ->
             count_char newline_char
               (labeled_line label (firstn n (extract_lines keywords
                                                 (split_on newline_char text) [])))
             = 0).
  { intros label keywords n Hlab. unfold labeled_line.
    rewrite !count_char_app, Hlab. simpl.
    rewrite join_count_zero; [reflexivity | reflexivity |].
    intros x Hx. apply in_firstn_in in Hx.
    exact (proj2 (extract_lines_entries _ _ _ Hx)). }
  unfold split_on, nl. fold newline_char.
  rewrite split_on_go_app_nosep by (apply Hl; reflexivity).
  rewrite split_on_go_sep.
  rewrite split_on_go_app_nosep by (apply Hl; reflexivity).
  rewrite split_on_go_sep.
  rewrite split_on_go_nosep by (apply Hl; reflexivity).
  reflexivity.
Qed.

(** [validate_input] of the research and writer agents accepts a string
    exactly when it holds a character that is not whitespace. *)
Theorem validate_input_iff_non_space (s : string) :
  validate_input s = true
  <-> exists c, In c (list_ascii_of_string s) /\ is_space c = false.
Proof.
  unfold validate_input. rewrite negb_true_iff, String.eqb_neq.
  rewrite strip_empty_iff_lstrip, lstrip_empty_iff.
  rewrite <- forallb_false_exists.
  split.
  - intros H. destruct (forallb is_space (list_ascii_of_string s)) eqn:E; [|reflexivity].
    exfalso; apply H. intros c Hc. rewrite forallb_forall in E. exact (E c Hc).
  - intros H Hall. assert (forallb is_space (list_ascii_of_string s) = true) as E
      by (apply forallb_forall; exact Hall).
    congruence.
Qed.

(** The draft stored in every record [create_content] returns has no
    surrounding whitespace: [postprocess_output] strips it. *)
Theorem create_content_draft_stripped llm now topic content_type target_audience
    word_count tone keywords research_depth tr tr' (r : ContentRecord)
    (H : create_content llm now topic content_type target_audience word_count tone
           keywords research_depth tr = (tr', Ok r)) :
  strip (draft_content (cr_content r)) = draft_content (cr_content r).
Proof.
  rewrite create_content_unfold in H.
  destruct (negb (validate_input topic)); [discriminate|].
  cbv zeta in H.
  destruct (llm ResearchSpecialist _) as [text|e]; [|discriminate].
  destruct (llm ContentWriter _) as [d|e]; [|discriminate].
  injection H as _ <-; simpl. apply strip_idem.
Qed.

(** [rewrite_content] returns text with no surrounding whitespace. *)
Theorem rewrite_content_stripped llm original_content new_tone new_audience new_length
    tr tr' (d : string)
    (H : rewrite_content llm original_content new_tone new_audience new_length tr
         = (tr', Ok d)) :
  strip d = d.
Proof.
  unfold rewrite_content, execute_task, bind, ret in H.
  destruct (llm ContentWriter _) as [res|e]; [|discriminate].
  injection H as _ <-. apply strip_idem.
Qed.



(* ------------------------------------------------------------------ *)
(** ** Lemmas on the accuracy score *)

Lemma lower_app (a b : string) : lower (a ++ b) = lower a ++ lower b.
Proof. induction a as [|c a IH]; simpl; [reflexivity | now rewrite IH]. Qed.

Lemma lower_char_is_digit (c : ascii) : is_digit (lower_char c) = is_digit c.
Proof. destruct c as [[|] [|] [|] [|] [|] [|] [|] [|]]; reflexivity. Qed.

Lemma lower_digits (d : Decimal.uint) :
  lower (NilZero.string_of_uint d) = NilZero.string_of_uint d.
Proof.
  assert (E : forall d, lower (NilEmpty.string_of_uint d) = NilEmpty.string_of_uint d)
    by (induction d0; simpl; try rewrite IHd0; reflexivity).
  destruct d; try reflexivity; apply E.
Qed.

Lemma take_digits_digits (d : Decimal.uint) (rest : string) :
  take_digits (NilZero.string_of_uint d ++ rest)
  = NilZero.string_of_uint d ++ take_digits rest.
Proof.
  assert (E : forall d, take_digits (NilEmpty.string_of_uint d ++ rest)
                        = NilEmpty.string_of_uint d ++ take_digits rest)
    by (induction d0; simpl; try rewrite IHd0; reflexivity).
  destruct d; try reflexivity; apply E.
Qed.

Lemma skip_colon_space_digits (d : Decimal.uint) (rest : string) :
  skip_colon_space (NilZero.string_of_uint d ++ rest) = NilZero.string_of_uint d ++ rest.
Proof. destruct d; reflexivity. Qed.

Lemma py_int_digits (d : Decimal.uint) : py_int (NilZero.string_of_uint d) = Nat.of_uint d.
Proof.
  destruct d eqn:E; try reflexivity;
  unfold py_int; rewrite NilZero.usu by discriminate; reflexivity.
Qed.

Lemma digits_nonempty (d : Decimal.uint) (rest : string) :
  NilZero.string_of_uint d ++ rest <> EmptyString.
Proof. destruct d; discriminate. Qed.

Lemma search_accuracy_absent (s : string) :
  contains "accuracy" s = false -> search_accuracy s = None.
Proof.
  induction s as [|c s IH]; [reflexivity|].
  intros H.
  assert (E1 : contains "accuracy" (String c s)
               = String.prefix "accuracy" (String c s) || contains "accuracy" s)
    by reflexivity.
  rewrite E1 in H. apply orb_false_iff in H as [Hp Hc].
  assert (E2 : search_accuracy (String c s)
               = match match_accuracy_at (String c s) with
                 | Some n => Some n
                 | None => search_accuracy s
                 end) by reflexivity.
  rewrite E2. unfold match_accuracy_at at 1. rewrite Hp.
  apply IH, Hc.
Qed.

Lemma filter_length_le {A} (f : A -> bool) (l : list A) : length (filter f l) <= length l.
Proof. induction l as [|a l IH]; simpl; [lia|]. destruct (f a); simpl; lia. Qed.

Lemma extract_lines_bound (keywords : list string) (text : string) :
  length (extract_lines keywords (split_on newline_char text) [])
  <= count_char newline_char text + 1.
Proof.
  rewrite extract_lines_filter; simpl app. rewrite length_map.
  rewrite <- (split_on_go_length newline_char EmptyString text).
  apply filter_length_le.
Qed.

Lemma extract_quote_lines_filter (lines out : list string) :
  extract_quote_lines lines out
  = app out (map strip (filter (fun line => contains dq line || contains "'" line) lines)).
Proof.
  revert out; induction lines as [|line rest IH]; intros out; simpl.
  - now rewrite app_nil_r.
  - rewrite IH. destruct (contains dq line || contains "'" line); simpl.
    + now rewrite <- app_assoc.
    + reflexivity.
Qed.

Lemma substring_full (s : string) : String.substring 0 (String.length s) s = s.
Proof. induction s as [|c s IH]; simpl; [reflexivity | now rewrite IH]. Qed.

Lemma search_accuracy_here (s : string) (k : nat) :
  match_accuracy_at s = Some k -> search_accuracy s = Some k.
Proof. intros H. destruct s; cbn [search_accuracy]; rewrite H; reflexivity. Qed.

(** [_extract_accuracy_score] returns [None] when [accuracy] does not
    occur in the text, whatever the case of its letters. *)
Theorem extract_accuracy_score_absent (text : string)
    (H : contains "accuracy" (lower text) = false) :
  extract_accuracy_score text = None.
Proof. unfold extract_accuracy_score. apply search_accuracy_absent, H. Qed.

(** A text that starts with [Accuracy: ] followed by the decimal digits
    of [n] (and then anything but a further digit) gets [n] back as its
    accuracy score. *)
Theorem extract_accuracy_score_roundtrip (n : nat) (rest : string)
    (H : starts_with_digit rest = false) :
  extract_accuracy_score ("Accuracy: " ++ NilZero.string_of_uint (Nat.to_uint n) ++ rest)
  = Some n.
Proof.
  unfold extract_accuracy_score.
  rewrite lower_app, lower_app, lower_digits.
  assert (Hr : take_digits (lower rest) = EmptyString).
  { destruct rest as [|c r]; [reflexivity|].
    simpl in H |- *. rewrite lower_char_is_digit, H. reflexivity. }
  set (D := NilZero.string_of_uint (Nat.to_uint n)).
  set (Y := D ++ lower rest).
  change (lower "Accuracy: ") with "accuracy: ".
  apply search_accuracy_here. unfold match_accuracy_at.
  replace (String.prefix "accuracy" ("accuracy: " ++ Y)) with true by reflexivity.
  assert (Hs : String.substring 8 (String.length ("accuracy: " ++ Y) - 8) ("accuracy: " ++ Y)
               = ": " ++ Y) by exact (substring_full (": " ++ Y)).
  rewrite Hs.
  change (skip_colon_space (": " ++ Y)) with (skip_colon_space Y).
  unfold Y, D. rewrite skip_colon_space_digits, take_digits_digits, Hr, str_app_nil_r.
  destruct (NilZero.string_of_uint (Nat.to_uint n)) eqn:E.
  - exfalso. apply (digits_nonempty (Nat.to_uint n) EmptyString).
    rewrite str_app_nil_r; exact E.
  - rewrite <- E, py_int_digits, DecimalNat.Unsigned.of_to. reflexivity.
Qed.



(** [rewrite_content] treats an empty tone, an empty audience and a target
    length of 0 as absent: it sends the same prompt and returns the same
    result as with [None]. *)
Theorem rewrite_content_falsy_args llm original_content tr :
  rewrite_content llm original_content (Some EmptyString) (Some EmptyString) (Some 0%Z) tr
  = rewrite_content llm original_content None None None tr.
Proof. reflexivity. Qed.

(** [create_content_draft] treats an empty keyword list and empty
    additional requirements as absent: the prompt is the same as with
    [None]. *)
Theorem writer_prompt_falsy_args topic content_type target_audience word_count tone :
  writer_prompt topic content_type target_audience word_count tone (Some [])
    (Some EmptyString)
  = writer_prompt topic content_type target_audience word_count tone None None.
Proof. reflexivity. Qed.

(** [find_expert_quotes] does not validate its topic: it makes one backend
    call for every topic, also for the empty one that [research_topic]
    refuses without a call; its [quotes_list] keeps, in order, the stripped
    lines that contain a double quote or an apostrophe. *)
Theorem find_expert_quotes_no_topic_check llm topic quote_type research_depth content_type
    target_audience tr :
  find_expert_quotes llm topic quote_type tr
  = (app tr [EvCompletion ResearchSpecialist (quotes_prompt topic quote_type)],
     match llm ResearchSpecialist (quotes_prompt topic quote_type) with
     | Ok text => Ok (parse_quotes_result text)
     | Raise e => Raise e
     end)
  /\ research_topic llm EmptyString research_depth content_type target_audience tr
     = (tr, Raise (ValueError "Topic cannot be empty"))
  /\ (forall text, dict_get (parse_quotes_result text) "quotes_list"
       = Some (VList (map strip (filter (fun line => contains dq line || contains "'" line)
                                     (split_on newline_char text))))).
Proof.
  split; [|split].
  - unfold find_expert_quotes, execute_task, bind, ret.
    destruct (llm ResearchSpecialist _); reflexivity.
  - reflexivity.
  - intros text. simpl. unfold extract_quotes. rewrite extract_quote_lines_filter. reflexivity.
Qed.

(** When the research data has none of [key_facts], [sources] and
    [insights], the requirements block is the empty string. *)
Theorem prepare_research_requirements_no_keys (research_data : pydict)
    (Hk : dict_has research_data "key_facts" = false)
    (Hs : dict_has research_data "sources" = false)
    (Hi : dict_has research_data "insights" = false) :
  prepare_research_requirements research_data = EmptyString.
Proof. unfold prepare_research_requirements. rewrite Hk, Hs, Hi. reflexivity. Qed.

(** No research bucket holds more entries than the answer has lines. *)
Theorem research_buckets_bounded (text : string) :
  length (extract_key_facts text) <= count_char newline_char text + 1
  /\ length (extract_sources text) <= count_char newline_char text + 1
  /\ length (extract_insights text) <= count_char newline_char text + 1
  /\ length (extract_recommendations text) <= count_char newline_char text + 1.
Proof. repeat split; apply extract_lines_bound. Qed.

(* ------------------------------------------------------------------ *)
(** ** Instances of the further properties *)

Lemma research_dict_entries_clean_witness :
  dict_get (parse_research_result ("  A fact: EVs are efficient.  " ++ nl ++ "Other line")
              "EVs") "key_facts"
    = Some (VList ["A fact: EVs are efficient."])
  /\ In "A fact: EVs are efficient." ["A fact: EVs are efficient."]
  /\ strip "A fact: EVs are efficient." = "A fact: EVs are efficient."
  /\ count_char newline_char "A fact: EVs are efficient." = 0.
Proof.
  assert (Hk : dict_get (parse_research_result
                           ("  A fact: EVs are efficient.  " ++ nl ++ "Other line") "EVs")
                 "key_facts" = Some (VList ["A fact: EVs are efficient."]))
    by (vm_compute; reflexivity).
  assert (Hx : In "A fact: EVs are efficient." ["A fact: EVs are efficient."])
    by (left; reflexivity).
  split; [exact Hk|]. split; [exact Hx|].
  exact (research_dict_entries_clean _ _ _ _ _ Hk Hx).
Defined.

Lemma create_content_draft_stripped_witness :
  exists tr' r,
    create_content (stub_llm "A fact." "  Draft text.  ") "2026-10-19T00:00:00"
      "electric vehicles" "article" "general" 500%Z "professional" None "comprehensive" []
    = (tr', Ok r)
    /\ strip (draft_content (cr_content r)) = draft_content (cr_content r).
Proof.
  do 2 eexists. split; [cbv; reflexivity|].
  exact (create_content_draft_stripped (stub_llm "A fact." "  Draft text.  ")
           "2026-10-19T00:00:00" "electric vehicles" "article" "general" 500%Z
           "professional" None "comprehensive" [] _ _ eq_refl).
Defined.

Lemma rewrite_content_stripped_witness :
  exists tr' d,
    rewrite_content (stub_llm "A fact." "  Rewritten.  ") "Original." (Some "casual")
      None (Some 200%Z) [] = (tr', Ok d)
    /\ strip d = d.
Proof.
  do 2 eexists. split; [cbv; reflexivity|].
  exact (rewrite_content_stripped (stub_llm "A fact." "  Rewritten.  ") "Original."
           (Some "casual") None (Some 200%Z) [] _ _ eq_refl).
Defined.



Lemma extract_accuracy_score_absent_witness :
  contains "accuracy" (lower "Score: 95 percent") = false
  /\ extract_accuracy_score "Score: 95 percent" = None.
Proof.
  assert (H : contains "accuracy" (lower "Score: 95 percent") = false)
    by (vm_compute; reflexivity).
  split; [exact H|]. exact (extract_accuracy_score_absent _ H).
Defined.

Lemma extract_accuracy_score_roundtrip_witness :
  starts_with_digit "% overall" = false
  /\ extract_accuracy_score ("Accuracy: " ++ NilZero.string_of_uint (Nat.to_uint 95)
                              ++ "% overall") = Some 95%nat.
Proof.
  assert (H : starts_with_digit "% overall" = false) by reflexivity.
  split; [exact H|]. exact (extract_accuracy_score_roundtrip 95 _ H).
Defined.


Lemma prepare_research_requirements_no_keys_witness :
  dict_has (parse_quotes_result "It's fine.") "key_facts" = false
  /\ dict_has (parse_quotes_result "It's fine.") "sources" = false
  /\ dict_has (parse_quotes_result "It's fine.") "insights" = false
  /\ prepare_research_requirements (parse_quotes_result "It's fine.") = EmptyString.
Proof.
  assert (Hk : dict_has (parse_quotes_result "It's fine.") "key_facts" = false)
    by (vm_compute; reflexivity).
  assert (Hs : dict_has (parse_quotes_result "It's fine.") "sources" = false)
    by (vm_compute; reflexivity).
  assert (Hi : dict_has (parse_quotes_result "It's fine.") "insights" = false)
    by (vm_compute; reflexivity).
  split; [exact Hk|]. split; [exact Hs|]. split; [exact Hi|].
  exact (prepare_research_requirements_no_keys _ Hk Hs Hi).
Defined.
